(** * Recipe selector: filtering and random selection

    A shallow embedding of [recipe_selector.py]: the catalog loader
    [load_recipes], the filter [filter_recipes] and the "Surprise Me!"
    handler of [main], with the properties of the recipe catalog filter
    proved about them.

    Conventions of the embedding.
    - A Python [str] is a [string] whose characters are code points below
      256 (Latin-1 text); [lower] is [str.lower] on that range. Where a
      statement is about text of any kind, [str.lower] is a parameter of
      it (see [filter_recipes_with]).
    - A Python [int] is a [Z].
    - A recipe dict carries the six keys of the data model; it is a record.
    - An [Optional] argument is an [option]; the tests [if cost:],
      [if cuisine:] and [if max_time:] are Python truth tests, written out
      as [str_truth] and [int_truth]. *)

From Stdlib Require Import ZArith Ascii String List Bool Lia QArith.
From stdpp Require Import base option list sorting gmap strings.

Local Open Scope string_scope.
Local Open Scope Z_scope.

(** ** Python strings *)

Module PyStr.

(** Code points that [str.lower] changes below 256: [A-Z] and the
    Latin-1 capitals 192..222 except the multiplication sign 215. *)
Definition is_upper (c : ascii) : bool :=
  let n := nat_of_ascii c in
  ((65 <=? n) && (n <=? 90) ||
   (192 <=? n) && (n <=? 222) && negb (n =? 215))%nat.

Definition lower_char (c : ascii) : ascii :=
  if is_upper c then ascii_of_nat (nat_of_ascii c + 32) else c.

(** [s.lower()] *)
Fixpoint lower (s : string) : string :=
  match s with
  | EmptyString => EmptyString
  | String c s' => String (lower_char c) (lower s')
  end.

(** [bool(s)]: the empty string is false, every other string is true. *)
Definition str_truth (s : string) : bool :=
  match s with
  | EmptyString => false
  | String _ _ => true
  end.

(** [bool(n)] for an int: zero is false, every other int is true. *)
Definition int_truth (n : Z) : bool := negb (n =? 0).

(** Two characters that are the same letter, whatever their case: this
    is the comparison "ignoring case" in words, without [lower]. *)
Definition same_letter (a b : ascii) : bool :=
  Ascii.eqb a b
  || is_upper a && Ascii.eqb b (ascii_of_nat (nat_of_ascii a + 32))
  || is_upper b && Ascii.eqb a (ascii_of_nat (nat_of_ascii b + 32)).

(** Equality of two strings ignoring case: same length, and the same
    letter at every position. *)
Fixpoint eq_ignore_case (s t : string) : bool :=
  match s, t with
  | EmptyString, EmptyString => true
  | String a s', String b t' => same_letter a b && eq_ignore_case s' t'
  | _, _ => false
  end.

End PyStr.

(** ** The data model *)

Module Recipe.

(** A recipe record of [recipes.json]. *)
Record t : Type := make {
  name : string;
  cuisine : string;
  cost : string;
  cooking_time : Z;
  ingredients : list string;
  directions : list string
}.

#[global] Instance eq_dec : EqDecision t.
Proof. solve_decision. Defined.

Definition eqb (r1 r2 : t) : bool := bool_decide (r1 = r2).

End Recipe.

(** The three cost tiers, as [cost_options] of [main] spells them. *)
Inductive CostTier : Type := Budget | Moderate | Luxury.

Definition tier_str (t : CostTier) : string :=
  match t with
  | Budget => "$"
  | Moderate => "$$"
  | Luxury => "$$$"
  end.

(** ** The filter *)

(** The conditions of the three list comprehensions of [filter_recipes]:
    [r["cost"] == cost], [r["cuisine"].lower() == cuisine.lower()] and
    [r["cooking_time"] <= max_time]. *)
Definition cost_is (cost : string) (r : Recipe.t) : bool :=
  String.eqb (Recipe.cost r) cost.

Definition cuisine_is (cuisine : string) (r : Recipe.t) : bool :=
  String.eqb (PyStr.lower (Recipe.cuisine r)) (PyStr.lower cuisine).

Definition within_time (max_time : Z) (r : Recipe.t) : bool :=
  Recipe.cooking_time r <=? max_time.

(** [[r for r in filtered if cond(r)]] *)
Definition comprehension (cond : Recipe.t -> bool) (filtered : list Recipe.t)
    : list Recipe.t :=
  List.filter cond filtered.

(** [if c: filtered = [r for r in filtered if cond]] for an optional
    criterion [c]:
    [None] is false, a value is tested by [truth]. *)
Definition guarded {A : Type} (truth : A -> bool) (c : option A)
    (cond : A -> Recipe.t -> bool) (filtered : list Recipe.t) : list Recipe.t :=
  match c with
  | Some v => if truth v then comprehension (cond v) filtered else filtered
  | None => filtered
  end.

Definition filter_recipes (recipes : list Recipe.t)
    (cost cuisine : option string) (max_time : option Z) : list Recipe.t :=
  let filtered := recipes in
  let filtered := guarded PyStr.str_truth cost cost_is filtered in
  let filtered := guarded PyStr.str_truth cuisine cuisine_is filtered in
  let filtered := guarded PyStr.int_truth max_time within_time filtered in
  filtered.

(** [filter_recipes] on text of any kind. Beyond Latin-1 a [string]
    stands for a Python [str] through a one-to-one encoding (UTF-8, say):
    [==] is still equality and the empty string is still the only false
    one. [str.lower], which is not computed there, is the parameter
    [lower]; with [PyStr.lower] for it this is [filter_recipes]. *)
Section AnyText.

Variable lower : string -> string.

Definition cuisine_is_with (cuisine : string) (r : Recipe.t) : bool :=
  String.eqb (lower (Recipe.cuisine r)) (lower cuisine).

Definition filter_recipes_with (recipes : list Recipe.t)
    (cost cuisine : option string) (max_time : option Z) : list Recipe.t :=
  let filtered := recipes in
  let filtered := guarded PyStr.str_truth cost cost_is filtered in
  let filtered := guarded PyStr.str_truth cuisine cuisine_is_with filtered in
  let filtered := guarded PyStr.int_truth max_time within_time filtered in
  filtered.

End AnyText.

(** The condition a criterion stands for: always true when the criterion
    is absent or fails its truth test. *)
Definition effective {A : Type} (truth : A -> bool) (c : option A)
    (cond : A -> Recipe.t -> bool) (r : Recipe.t) : bool :=
  match c with
  | Some v => if truth v then cond v r else true
  | None => true
  end.

(** The recipes of [l1] that also occur in [l2], in the order of [l1]. *)
Definition intersection (l1 l2 : list Recipe.t) : list Recipe.t :=
  List.filter (fun r => existsb (Recipe.eqb r) l2) l1.

(** ** Exceptions and user-visible effects *)

Inductive exn : Type :=
  | FileNotFoundError
  | PermissionError
  | UnicodeDecodeError
  | JSONDecodeError
  | KeyError
  | TypeError
  | IndexError
  | ValueError.

Inductive outcome (A : Type) : Type :=
  | Return (a : A)
  | Raise (e : exn).
Arguments Return {A} a.
Arguments Raise {A} e.

Definition bind {A B : Type} (m : outcome A) (k : A -> outcome B) : outcome B :=
  match m with
  | Return a => k a
  | Raise e => Raise e
  end.

Notation "'do' x <- m ; k" := (bind m (fun x => k))
  (at level 10, x name, m at level 100, k at level 200).

(** What the page shows, in order: [st.error], the line with the number
    of matching recipes, [st.spinner], [time.sleep] and
    [display_recipe]. *)
Inductive ui : Type :=
  | StError (msg : string)
  | MatchingRecipes (count : nat)
  | StSpinner (msg : string)
  | Sleep
  | DisplayRecipe (r : Recipe.t).

(** ** The catalog loader *)

(** A decoded JSON document, as [json.load] returns it. A float is kept as
    its literal; the items of a dict have distinct keys. *)
#[local] Unset Elimination Schemes.
Inductive pyval : Type :=
  | PNone
  | PBool (b : bool)
  | PInt (n : Z)
  | PFloat (literal : string)
  | PStr (s : string)
  | PList (items : list pyval)
  | PDict (items : list (string * pyval)).
#[local] Set Elimination Schemes.

Fixpoint dict_get (key : string) (items : list (string * pyval)) : option pyval :=
  match items with
  | [] => None
  | (k, v) :: rest => if String.eqb k key then Some v else dict_get key rest
  end.

(** [data[key]] for a string key: only a dict that has the key answers. *)
Definition subscript (data : pyval) (key : string) : outcome pyval :=
  match data with
  | PDict items =>
      match dict_get key items with
      | Some v => Return v
      | None => Raise KeyError
      end
  | _ => Raise TypeError
  end.

(** What [open(file_path, 'r')] finds at a path. *)
Inductive file : Type :=
  | Missing
  | Denied
  | Text (content : string).

Section Loader.

(** The file system, and [json.load] on the text of an opened file. *)
Variable fs : string -> file.
Variable json_load : string -> outcome pyval.

Definition open (file_path : string) : outcome string :=
  match fs file_path with
  | Missing => Raise FileNotFoundError
  | Denied => Raise PermissionError
  | Text content => Return content
  end.

(** The body of the [try]. *)
Definition load_recipes_try (file_path : string) : outcome pyval :=
  do content <- open file_path;
  do data <- json_load content;
  subscript data "recipes".

(** The [try] with its two [except] clauses; any other exception goes
    on to the caller. *)
Definition load_recipes (file_path : string) : list ui * outcome pyval :=
  match load_recipes_try file_path with
  | Raise FileNotFoundError =>
      ([StError ("Recipe file not found: " ++ file_path)], Return (PList []))
  | Raise JSONDecodeError =>
      ([StError "Error decoding recipe file. Please check the JSON format."],
       Return (PList []))
  | result => ([], result)
  end.

End Loader.

(** ** The random selector *)

(** [random.choice(seq)] when the generator draws the index [i]:
    [seq[i]], and IndexError on an empty sequence. *)
Definition random_choice {A : Type} (i : nat) (seq : list A) : outcome A :=
  match seq with
  | [] => Raise IndexError
  | _ :: _ =>
      match seq !! i with
      | Some x => Return x
      | None => Raise IndexError
      end
  end.

(** [not filtered_recipes] *)
Definition list_not {A : Type} (l : list A) : bool :=
  match l with
  | [] => true
  | _ :: _ => false
  end.

(** The block under [if st.button("Surprise Me!")] of [main]. *)
Definition surprise_me (clicked : bool) (i : nat)
    (filtered_recipes : list Recipe.t) : list ui * outcome unit :=
  if clicked then
    if list_not filtered_recipes then
      ([StError "No recipes match your criteria. Try adjusting the filters!"],
       Return tt)
    else
      match random_choice i filtered_recipes with
      | Return selected_recipe =>
          ([StSpinner "Finding the perfect recipe..."; Sleep;
            DisplayRecipe selected_recipe], Return tt)
      | Raise e =>
          ([StSpinner "Finding the perfect recipe..."; Sleep], Raise e)
      end
  else ([], Return tt).

(** The draws of the generator for a sequence of [n] elements: the
    indices below [n], each as likely as any other. *)
Definition draws (n : nat) : list nat := seq 0 n.

(** The probability of an event over the draws for [n] elements. *)
Definition prob (n : nat) (event : nat -> bool) : Q :=
  Z.of_nat (length (List.filter event (draws n))) # Pos.of_nat n.

(** Every element with its position, to tell equal recipes apart. *)
Definition tagged {A : Type} (l : list A) : list (nat * A) :=
  imap (fun k x => (k, x)) l.

(** The draw [i] selects position [k] of [l]. *)
Definition selects {A : Type} (l : list A) (k i : nat) : bool :=
  match random_choice i (tagged l) with
  | Return (k', _) => Nat.eqb k' k
  | Raise _ => false
  end.

(** ** The filter on the object store

    Python lists and dicts are objects that are shared by reference. To
    say what [filter_recipes] leaves alone, the same function is written
    once more over a store of objects: a list object holds the addresses
    of its elements, a recipe dict holds its fields. A read answers
    [None] at an address that holds no object of the kind asked for. *)

Module Heap.

Definition loc : Type := positive.

Inductive obj : Type :=
  | Dict (r : Recipe.t)
  | List (items : list loc).

Abbreviation heap := (gmap loc obj).

Definition read_list (h : heap) (l : loc) : option (list loc) :=
  match h !! l with
  | Some (List items) => Some items
  | _ => None
  end.

Definition read_dict (h : heap) (l : loc) : option Recipe.t :=
  match h !! l with
  | Some (Dict r) => Some r
  | _ => None
  end.

(** The dicts at the addresses [items] are [rs], in order. *)
Definition dicts (h : heap) (items : list loc) (rs : list Recipe.t) : Prop :=
  Forall2 (fun x r => read_dict h x = Some r) items rs.

(** The recipes a list object holds, in order. *)
Definition view (h : heap) (l : loc) : option (list Recipe.t) :=
  items ← read_list h l; mapM (read_dict h) items.

(** A new object at an address that is not in use. *)
Definition alloc (h : heap) (o : obj) : heap * loc :=
  let l := fresh (dom h) in (<[l := o]> h, l).

(** The loop of a list comprehension: every element whose dict passes
    [cond] is appended to the list object at [dst]. *)
Fixpoint comprehension_loop (cond : Recipe.t -> bool) (dst : loc)
    (items : list loc) (h : heap) : option heap :=
  match items with
  | [] => Some h
  | x :: rest =>
      r ← read_dict h x;
      if cond r then
        acc ← read_list h dst;
        comprehension_loop cond dst rest (<[dst := List (acc ++ [x])]> h)
      else comprehension_loop cond dst rest h
  end.

(** [[r for r in filtered if cond(r)]]: a new empty list, filled by the
    loop; the value is the address of the new list. *)
Definition comprehension (cond : Recipe.t -> bool) (h : heap)
    (filtered : loc) : option (heap * loc) :=
  items ← read_list h filtered;
  let '(h1, dst) := alloc h (List []) in
  h2 ← comprehension_loop cond dst items h1;
  Some (h2, dst).

Definition guarded {A : Type} (truth : A -> bool) (c : option A)
    (cond : A -> Recipe.t -> bool) (st : heap * loc) : option (heap * loc) :=
  match c with
  | Some v => if truth v then comprehension (cond v) st.1 st.2 else Some st
  | None => Some st
  end.

(** [filter_recipes] on the store: [filtered] starts as the address of
    the argument itself. *)
Definition filter_recipes (h : heap) (recipes : loc)
    (cost cuisine : option string) (max_time : option Z)
    : option (heap * loc) :=
  let filtered := (h, recipes) in
  filtered ← guarded PyStr.str_truth cost cost_is filtered;
  filtered ← guarded PyStr.str_truth cuisine cuisine_is filtered;
  filtered ← guarded PyStr.int_truth max_time within_time filtered;
  Some filtered.

(** Does any criterion pass its truth test? *)
Definition applies (cost cuisine : option string) (max_time : option Z) : bool :=
  from_option PyStr.str_truth false cost
  || from_option PyStr.str_truth false cuisine
  || from_option PyStr.int_truth false max_time.

End Heap.

(** ** The rest of the sidebar of [main] *)

(** [max(r["cooking_time"] for r in recipes)]: ValueError on an empty
    catalog. *)
Definition max_possible_time (recipes : list Recipe.t) : outcome Z :=
  match recipes with
  | [] => Raise ValueError
  | r :: rest =>
      Return (fold_left Z.max (map Recipe.cooking_time rest) (Recipe.cooking_time r))
  end.

(** The sidebar of [main] from the time slider on. The widgets' values
    are arguments: the selected cost and cuisine ([None] for "Any"), the
    slider's value, whether the button was clicked, and the index the
    generator draws. *)
Definition main_sidebar (recipes : list Recipe.t)
    (selected_cost selected_cuisine : option string) (time_filter : Z)
    (clicked : bool) (i : nat) : list ui * outcome unit :=
  match max_possible_time recipes with
  | Raise e => ([], Raise e)
  | Return _ =>
      let filtered_recipes :=
        filter_recipes recipes selected_cost selected_cuisine (Some time_filter) in
      let '(shown, result) := surprise_me clicked i filtered_recipes in
      (MatchingRecipes (length filtered_recipes) :: shown, result)
  end.

(** ** Emoji *)

(** A string with characters beyond Latin-1 is the list of its code
    points. *)
Definition ustr : Type := list N.

Definition money_bag : N := 128176.
Definition high_voltage : N := 9889.
Definition alarm_clock : N := 9200.
Definition mantelpiece_clock : N := 128368.
Definition variation_selector : N := 65039.

(** [d.get(key)] on a dict literal with string keys. *)
Fixpoint table_get {V : Type} (key : string) (items : list (string * V)) : option V :=
  match items with
  | [] => None
  | (k, v) :: rest => if String.eqb k key then Some v else table_get key rest
  end.

(** The dict literal of [get_cost_emoji]. *)
Definition cost_emoji : list (string * ustr) :=
  [("$", [money_bag]);
   ("$$", [money_bag; money_bag]);
   ("$$$", [money_bag; money_bag; money_bag])].

(** [{...}.get(cost, "")] *)
Definition get_cost_emoji (cost : string) : ustr :=
  default [] (table_get cost cost_emoji).

Definition get_time_emoji (cooking_time : Z) : ustr :=
  if cooking_time <=? 30 then [high_voltage]
  else if cooking_time <=? 60 then [alarm_clock]
  else [mantelpiece_clock; variation_selector].

(** ** Displaying a recipe *)

(** One constructor for each [st.markdown] call of [display_recipe], with
    the values its text is built from. *)
Inductive markup : Type :=
  | CardOpen
  | Title (name : string)
  | CuisineTag (cuisine : string)
  | CostCard (emoji : ustr) (cost : string)
  | TimeCard (emoji : ustr) (minutes : Z)
  | CuisineCard (cuisine : string)
  | IngredientsHeading
  | Ingredient (ingredient : string)
  | DirectionsHeading
  | Step (i : nat) (step : string)
  | CardClose.

(** [enumerate(l, start)] *)
Definition enumerate {A : Type} (l : list A) (start : nat) : list (nat * A) :=
  imap (fun k x => (start + k, x)%nat) l.

Definition display_recipe (recipe : Recipe.t) : list markup :=
  [CardOpen;
   Title (Recipe.name recipe);
   CuisineTag (Recipe.cuisine recipe);
   CostCard (get_cost_emoji (Recipe.cost recipe)) (Recipe.cost recipe);
   TimeCard (get_time_emoji (Recipe.cooking_time recipe))
            (Recipe.cooking_time recipe);
   CuisineCard (Recipe.cuisine recipe);
   IngredientsHeading]
  ++ map Ingredient (Recipe.ingredients recipe)
  ++ [DirectionsHeading]
  ++ map (fun '(i, step) => Step i step) (enumerate (Recipe.directions recipe) 1)
  ++ [CardClose].

(** The steps and the ingredients a page shows, in order. *)
Definition steps_shown (page : list markup) : list (nat * string) :=
  omap (fun m => match m with Step i s => Some (i, s) | _ => None end) page.

Definition ingredients_shown (page : list markup) : list string :=
  omap (fun m => match m with Ingredient s => Some s | _ => None end) page.

(** ** The widgets of the sidebar *)

(** The options of the budget select box, and [cost_options[cost_filter]]. *)
Inductive CostChoice : Type :=
  | AnyCost
  | TierCost (tier : CostTier).

Definition cost_options (cost_filter : CostChoice) : option string :=
  match cost_filter with
  | AnyCost => None
  | TierCost tier => Some (tier_str tier)
  end.

(** The order of Python strings: by code point, a proper prefix first. *)
Definition str_le (s t : string) : Prop := String.leb s t = true.

#[global] Instance str_le_dec : RelDecision str_le.
Proof. intros s t. unfold str_le. apply _. Defined.

(** [sorted(list(set(r["cuisine"] for r in recipes)))]: the set is a
    [gset], listed in an order of its own, and sorted. *)
Definition cuisines (recipes : list Recipe.t) : list string :=
  merge_sort str_le
    (elements (list_to_set (map Recipe.cuisine recipes) : gset string)).

(** The options of the cuisine select box. *)
Definition cuisine_options (recipes : list Recipe.t) : list string :=
  "Any" :: cuisines recipes.

(** [None if cuisine_filter == "Any" else cuisine_filter] *)
Definition selected_cuisine (cuisine_filter : string) : option string :=
  if String.eqb cuisine_filter "Any" then None else Some cuisine_filter.

(** The value of the time slider: where the user moved it, or its
    initial value [max_possible_time] when it was not moved. *)
Definition slider (recipes : list Recipe.t) (moved : option Z) : outcome Z :=
  do max_time <- max_possible_time recipes;
  Return (default max_time moved).

(** The sidebar of [main] on a loaded catalog, from the widgets' values:
    the budget option, the cuisine option, the slider, the button and
    the index the generator draws. *)
Definition main_widgets (recipes : list Recipe.t) (cost_filter : CostChoice)
    (cuisine_filter : string) (moved : option Z) (clicked : bool) (i : nat)
    : list ui * outcome unit :=
  let selected_cost := cost_options cost_filter in
  let selected := selected_cuisine cuisine_filter in
  match slider recipes moved with
  | Raise e => ([], Raise e)
  | Return time_filter =>
      main_sidebar recipes selected_cost selected time_filter clicked i
  end.

(** ** From the file to the page *)

(** A decoded document read as a catalog: a list of dicts that carry the
    six keys of the data model with values of their types. [None] is a
    document outside this embedding. *)
Definition as_str (v : pyval) : option string :=
  match v with PStr s => Some s | _ => None end.

Definition as_int (v : pyval) : option Z :=
  match v with PInt n => Some n | _ => None end.

Definition as_str_list (v : pyval) : option (list string) :=
  match v with PList items => mapM as_str items | _ => None end.

Definition as_recipe (v : pyval) : option Recipe.t :=
  match v with
  | PDict items =>
      name ← dict_get "name" items ≫= as_str;
      cuisine ← dict_get "cuisine" items ≫= as_str;
      cost ← dict_get "cost" items ≫= as_str;
      cooking_time ← dict_get "cooking_time" items ≫= as_int;
      ingredients ← dict_get "ingredients" items ≫= as_str_list;
      directions ← dict_get "directions" items ≫= as_str_list;
      Some (Recipe.make name cuisine cost cooking_time ingredients directions)
  | _ => None
  end.

Definition as_catalog (v : pyval) : option (list Recipe.t) :=
  match v with PList items => mapM as_recipe items | _ => None end.

(** [main]: the catalog is loaded from [recipes.json], then the sidebar
    runs on it. *)
Definition main (fs : string -> file) (json_load : string -> outcome pyval)
    (cost_filter : CostChoice) (cuisine_filter : string) (moved : option Z)
    (clicked : bool) (i : nat) : option (list ui * outcome unit) :=
  let '(reported, loaded) := load_recipes fs json_load "recipes.json" in
  match loaded with
  | Raise e => Some (reported, Raise e)
  | Return data =>
      recipes ← as_catalog data;
      let '(shown, result) :=
        main_widgets recipes cost_filter cuisine_filter moved clicked i in
      Some ((reported ++ shown)%list, result)
  end.

(** ** Sample data *)

Definition all_ascii : list ascii := map ascii_of_nat (seq 0 256).

Definition pad_thai : Recipe.t :=
  Recipe.make "Pad Thai" "Thai" "$" 30 ["noodles"; "peanuts"] ["fry"].

Definition risotto : Recipe.t :=
  Recipe.make "Risotto" "ITALIAN" "$$" 45 ["rice"; "stock"] ["stir"].

Definition carbonara : Recipe.t :=
  Recipe.make "Carbonara" "Italian" "$" 20 ["pasta"; "egg"] ["boil"; "mix"].

Definition catalog : list Recipe.t := [pad_thai; risotto; carbonara].

(** A cuisine spelled with the sharp s, code point 223. *)
Definition sharp_s : string := String (ascii_of_nat 223) "".

Definition currywurst : Recipe.t :=
  Recipe.make "Currywurst" ("Stra" ++ sharp_s ++ "e") "$" 15
    ["sausage"; "curry"] ["grill"].

(** A file system with one readable file, [recipes.json], whose text is a
    lone opening brace, and a decoder that knows two documents: the empty
    object, and everything else, which it rejects. *)
Definition sample_fs (file_path : string) : file :=
  if String.eqb file_path "recipes.json" then Text "{"
  else if String.eqb file_path "empty.json" then Text "{}"
  else Missing.

Definition sample_json_load (content : string) : outcome pyval :=
  if String.eqb content "{}" then Return (PDict []) else Raise JSONDecodeError.

(** A store with the catalog: three recipe dicts and the list of them. *)
Definition sample_heap : Heap.heap :=
  <[4%positive := Heap.List [1%positive; 2%positive; 3%positive]]>
  (<[3%positive := Heap.Dict carbonara]>
  (<[2%positive := Heap.Dict risotto]>
  (<[1%positive := Heap.Dict pad_thai]> ∅))).

(** * Properties *)

(** ** Strings *)

Lemma all_ascii_complete (c : ascii) : In c all_ascii.
Proof.
  unfold all_ascii. apply in_map_iff. exists (nat_of_ascii c). split.
  - apply ascii_nat_embedding.
  - apply in_seq. pose proof (nat_ascii_bounded c). lia.
Qed.

Lemma same_letter_table :
  forallb (fun a => forallb (fun b =>
    Bool.eqb (PyStr.same_letter a b)
             (Ascii.eqb (PyStr.lower_char a) (PyStr.lower_char b)))
    all_ascii) all_ascii = true.
Proof. vm_compute. reflexivity. Qed.

Lemma same_letter_lower (a b : ascii) :
  PyStr.same_letter a b = Ascii.eqb (PyStr.lower_char a) (PyStr.lower_char b).
Proof.
  pose proof same_letter_table as T.
  rewrite forallb_forall in T. specialize (T a (all_ascii_complete a)).
  rewrite forallb_forall in T. specialize (T b (all_ascii_complete b)).
  apply Bool.eqb_prop. exact T.
Qed.

(** Comparing the lowered strings is comparing the strings letter by
    letter, ignoring case. *)
Lemma eq_ignore_case_lower (s t : string) :
  PyStr.eq_ignore_case s t = String.eqb (PyStr.lower s) (PyStr.lower t).
Proof.
  revert t. induction s as [|a s IH]; intros [|b t]; simpl; try reflexivity.
  rewrite same_letter_lower, IH.
  destruct (Ascii.eqb _ _); reflexivity.
Qed.

Lemma eq_ignore_case_refl (s : string) : PyStr.eq_ignore_case s s = true.
Proof. rewrite eq_ignore_case_lower. apply String.eqb_refl. Qed.

Lemma eq_ignore_case_length (s t : string) :
  PyStr.eq_ignore_case s t = true -> String.length s = String.length t.
Proof.
  revert t. induction s as [|a s IH]; intros [|b t]; simpl; try discriminate.
  - reflexivity.
  - intros H. apply andb_prop in H as [_ H]. f_equal. apply IH, H.
Qed.

Lemma str_truth_true (s : string) : PyStr.str_truth s = true <-> s <> "".
Proof. destruct s; simpl; split; intros; congruence. Qed.

Lemma int_truth_true (n : Z) : PyStr.int_truth n = true <-> n <> 0.
Proof.
  unfold PyStr.int_truth. destruct (Z.eqb_spec n 0); simpl; split; intros; congruence.
Qed.

(** ** The filter on values *)

Lemma guarded_None {A : Type} (truth : A -> bool) cond (l : list Recipe.t) :
  guarded truth None cond l = l.
Proof. reflexivity. Qed.

Lemma guarded_cases {A : Type} (truth : A -> bool) (c : option A) cond l :
  guarded truth c cond l = l \/
  exists v, c = Some v /\ truth v = true /\ guarded truth c cond l = List.filter (cond v) l.
Proof.
  destruct c as [v|]; simpl; [|left; reflexivity].
  destruct (truth v) eqn:E; [right; exists v; auto | left; reflexivity].
Qed.

Lemma filter_true {A : Type} (l : list A) : List.filter (fun _ => true) l = l.
Proof. induction l as [|x l IH]; simpl; congruence. Qed.

Lemma guarded_filter {A : Type} (truth : A -> bool) (c : option A) cond l :
  guarded truth c cond l = List.filter (effective truth c cond) l.
Proof.
  unfold guarded, effective, comprehension.
  destruct c as [v|]; [destruct (truth v)|];
    try reflexivity; symmetry; apply filter_true.
Qed.

Lemma filter_filter {A : Type} (p q : A -> bool) (l : list A) :
  List.filter q (List.filter p l) = List.filter (fun x => p x && q x) l.
Proof.
  induction l as [|x l IH]; simpl; [reflexivity|].
  destruct (p x); simpl; [destruct (q x)|]; congruence.
Qed.

(** [filter_recipes] is one pass with the conjunction of the conditions. *)
Lemma filter_recipes_filter recipes cost cuisine max_time :
  filter_recipes recipes cost cuisine max_time =
  List.filter (fun r =>
      effective PyStr.str_truth cost cost_is r
      && effective PyStr.str_truth cuisine cuisine_is r
      && effective PyStr.int_truth max_time within_time r) recipes.
Proof.
  unfold filter_recipes. rewrite !guarded_filter, !filter_filter.
  apply List.filter_ext. intros r. apply andb_assoc.
Qed.

Lemma filter_sublist {A : Type} (p : A -> bool) (l : list A) :
  List.filter p l `sublist_of` l.
Proof.
  induction l as [|x l IH]; simpl; [constructor|].
  destruct (p x); [apply sublist_skip | apply sublist_cons]; exact IH.
Qed.

Lemma existsb_eqb_In (r : Recipe.t) (l : list Recipe.t) :
  existsb (Recipe.eqb r) l = true <-> In r l.
Proof.
  rewrite existsb_exists. unfold Recipe.eqb. split.
  - intros (x & Hx & E). apply bool_decide_eq_true in E. subst. exact Hx.
  - intros H. exists r. split; [exact H | apply bool_decide_eq_true; reflexivity].
Qed.

Lemma intersection_filters (p q : Recipe.t -> bool) (l : list Recipe.t) :
  intersection (List.filter p l) (List.filter q l) =
  List.filter (fun r => p r && q r) l.
Proof.
  unfold intersection. rewrite filter_filter.
  apply List.filter_ext_in. intros r Hr. f_equal.
  apply eq_true_iff_eq. rewrite existsb_eqb_In, List.filter_In. tauto.
Qed.

(** A criterion used alone. *)
Lemma filter_recipes_cost_only recipes cost :
  filter_recipes recipes cost None None =
  List.filter (effective PyStr.str_truth cost cost_is) recipes.
Proof. unfold filter_recipes. simpl. apply guarded_filter. Qed.

Lemma filter_recipes_cuisine_only recipes cuisine :
  filter_recipes recipes None cuisine None =
  List.filter (effective PyStr.str_truth cuisine cuisine_is) recipes.
Proof. unfold filter_recipes. simpl. apply guarded_filter. Qed.

Lemma filter_recipes_max_time_only recipes max_time :
  filter_recipes recipes None None max_time =
  List.filter (effective PyStr.int_truth max_time within_time) recipes.
Proof. unfold filter_recipes. simpl. apply guarded_filter. Qed.

(** A threshold of zero fails the test [if max_time:], and an empty
    string fails [if cost:] and [if cuisine:]: nothing is filtered. *)
Lemma filter_recipes_falsy recipes :
  filter_recipes recipes (Some "") (Some "") (Some 0) = recipes.
Proof. reflexivity. Qed.

(** C2, as stated, fails at the threshold 0: [if max_time:] is false for
    0, so the whole catalog comes back, although no recipe of it cooks in
    0 minutes or less. *)
Lemma max_time_zero_counterexample :
  ~ (forall r, In r (filter_recipes catalog None None (Some 0)) <->
               In r catalog /\ Recipe.cooking_time r <= 0).
Proof.
  intros H. destruct (H pad_thai) as [H1 _].
  assert (In pad_thai (filter_recipes catalog None None (Some 0))) as Hin
    by (simpl; auto).
  apply H1 in Hin as [_ Hle]. simpl in Hle. lia.
Qed.

(** C2 (amended): for every recipe list and every threshold other than 0,
    [filter_recipes] with that [max_time] alone returns exactly the recipes
    whose cooking time is at most the threshold, the bound included, in
    their input order. *)
Theorem filter_by_max_time (recipes : list Recipe.t) (max_time : Z) :
  max_time <> 0 ->
  filter_recipes recipes None None (Some max_time) =
    List.filter (fun r => Recipe.cooking_time r <=? max_time) recipes
  /\ forall r, In r (filter_recipes recipes None None (Some max_time)) <->
               In r recipes /\ Recipe.cooking_time r <= max_time.
Proof.
  intros Hnz. apply int_truth_true in Hnz.
  assert (filter_recipes recipes None None (Some max_time) =
          List.filter (fun r => Recipe.cooking_time r <=? max_time) recipes) as E.
  { rewrite filter_recipes_max_time_only. unfold effective. rewrite Hnz.
    reflexivity. }
  split; [exact E|].
  intros r. rewrite E, List.filter_In, Z.leb_le. reflexivity.
Qed.

Lemma filter_by_max_time_witness :
  filter_recipes catalog None None (Some 30) = [pad_thai; carbonara]
  /\ forall r, In r (filter_recipes catalog None None (Some 30)) <->
               In r catalog /\ Recipe.cooking_time r <= 30.
Proof.
  destruct (filter_by_max_time catalog 30) as [E H]; [lia|].
  split; [rewrite E; reflexivity | exact H].
Defined.

(** C5, as stated, fails at the empty cuisine string: [if cuisine:] is
    false for it, so the whole catalog comes back, although no recipe of
    it has an empty cuisine. *)
Lemma cuisine_empty_counterexample :
  ~ (forall r, In r (filter_recipes catalog None (Some "") None) <->
               In r catalog /\ PyStr.eq_ignore_case (Recipe.cuisine r) "" = true).
Proof.
  intros H. destruct (H pad_thai) as [H1 _].
  assert (In pad_thai (filter_recipes catalog None (Some "") None)) as Hin
    by (simpl; auto).
  apply H1 in Hin as [_ Heq]. simpl in Heq. discriminate.
Qed.

Lemma filter_recipes_with_lower recipes cost cuisine max_time :
  filter_recipes_with PyStr.lower recipes cost cuisine max_time =
  filter_recipes recipes cost cuisine max_time.
Proof. reflexivity. Qed.

Lemma filter_recipes_with_filter lower recipes cost cuisine max_time :
  filter_recipes_with lower recipes cost cuisine max_time =
  List.filter (fun r =>
      effective PyStr.str_truth cost cost_is r
      && effective PyStr.str_truth cuisine (cuisine_is_with lower) r
      && effective PyStr.int_truth max_time within_time r) recipes.
Proof.
  unfold filter_recipes_with. rewrite !guarded_filter, !filter_filter.
  apply List.filter_ext. intros r. apply andb_assoc.
Qed.

(** Lowering does not fold the sharp s into a double s: the comparison is
    letter by letter over strings of the same length. *)
Lemma sharp_s_not_folded :
  filter_recipes [currywurst] None (Some "STRASSE") None = []
  /\ filter_recipes [currywurst] None (Some ("STRA" ++ sharp_s ++ "E")) None
     = [currywurst].
Proof. split; reflexivity. Qed.

(** C5 (amended): for every recipe list and every non-empty cuisine
    string, [filter_recipes] with that cuisine alone returns exactly the
    recipes whose cuisine, lowered by [str.lower], is equal as a whole
    string to the criterion lowered by [str.lower], in their input order;
    this for text of any kind, [str.lower] being the parameter [lower].
    On text of code points below 256 that is equality ignoring case,
    letter by letter over strings of the same length. *)
Theorem filter_by_cuisine (lower : string -> string)
    (recipes : list Recipe.t) (cuisine : string) :
  cuisine <> "" ->
  (filter_recipes_with lower recipes None (Some cuisine) None =
     List.filter
       (fun r => String.eqb (lower (Recipe.cuisine r)) (lower cuisine)) recipes
   /\ forall r, In r (filter_recipes_with lower recipes None (Some cuisine) None) <->
                In r recipes /\ lower (Recipe.cuisine r) = lower cuisine)
  /\ (filter_recipes recipes None (Some cuisine) None =
        List.filter (fun r => PyStr.eq_ignore_case (Recipe.cuisine r) cuisine)
          recipes
      /\ forall r, In r (filter_recipes recipes None (Some cuisine) None) <->
                   In r recipes
                   /\ PyStr.eq_ignore_case (Recipe.cuisine r) cuisine = true).
Proof.
  intros Hne. apply str_truth_true in Hne.
  assert (forall lower',
            filter_recipes_with lower' recipes None (Some cuisine) None =
            List.filter
              (fun r => String.eqb (lower' (Recipe.cuisine r)) (lower' cuisine))
              recipes) as E.
  { intros lower'. unfold filter_recipes_with, guarded, comprehension.
    rewrite Hne. reflexivity. }
  split; split.
  - apply E.
  - intros r. rewrite E, List.filter_In, String.eqb_eq. reflexivity.
  - rewrite <- filter_recipes_with_lower, E.
    apply List.filter_ext. intros r. symmetry. apply eq_ignore_case_lower.
  - intros r. rewrite <- filter_recipes_with_lower, E, List.filter_In.
    rewrite eq_ignore_case_lower. reflexivity.
Qed.

Lemma filter_by_cuisine_witness :
  filter_recipes_with PyStr.lower catalog None (Some "italian") None
    = [risotto; carbonara]
  /\ filter_recipes catalog None (Some "italian") None = [risotto; carbonara]
  /\ forall r, In r (filter_recipes catalog None (Some "italian") None) <->
               In r catalog /\ PyStr.eq_ignore_case (Recipe.cuisine r) "italian" = true.
Proof.
  destruct (filter_by_cuisine PyStr.lower catalog "italian")
    as [[E1 _] [E2 H]]; [discriminate|].
  split; [rewrite E1; reflexivity|].
  split; [rewrite E2; reflexivity | exact H].
Defined.

(** C6: for every recipe list and every cost tier, whatever the other
    criteria, [filter_recipes] with that cost returns only recipes of the
    list whose cost is exactly that tier; with the cost alone it returns
    all of them. *)
Theorem filter_by_cost (recipes : list Recipe.t) (tier : CostTier)
    (cuisine : option string) (max_time : option Z) :
  Forall (fun r => In r recipes /\ Recipe.cost r = tier_str tier)
    (filter_recipes recipes (Some (tier_str tier)) cuisine max_time)
  /\ forall r, In r (filter_recipes recipes (Some (tier_str tier)) None None) <->
               In r recipes /\ Recipe.cost r = tier_str tier.
Proof.
  assert (forall r, effective PyStr.str_truth (Some (tier_str tier)) cost_is r = true
                    <-> Recipe.cost r = tier_str tier) as Heff.
  { intros r. unfold effective, cost_is.
    replace (PyStr.str_truth (tier_str tier)) with true by (destruct tier; reflexivity).
    apply String.eqb_eq. }
  split.
  - apply List.Forall_forall. intros r Hr.
    rewrite filter_recipes_filter in Hr. apply List.filter_In in Hr as [Hin Hc].
    apply andb_prop in Hc as [Hc _]. apply andb_prop in Hc as [Hc _].
    split; [exact Hin | apply Heff, Hc].
  - intros r. rewrite filter_recipes_cost_only, List.filter_In, Heff. reflexivity.
Qed.

(** C7: for every recipe list and every combination of the three
    criteria, the result of [filter_recipes] with all of them is the
    intersection of its results with each one alone. *)
Theorem filter_recipes_intersection (recipes : list Recipe.t)
    (cost cuisine : option string) (max_time : option Z) :
  filter_recipes recipes cost cuisine max_time =
    intersection
      (intersection (filter_recipes recipes cost None None)
                    (filter_recipes recipes None cuisine None))
      (filter_recipes recipes None None max_time)
  /\ forall r, In r (filter_recipes recipes cost cuisine max_time) <->
               In r (filter_recipes recipes cost None None)
               /\ In r (filter_recipes recipes None cuisine None)
               /\ In r (filter_recipes recipes None None max_time).
Proof.
  rewrite filter_recipes_cost_only, filter_recipes_cuisine_only,
    filter_recipes_max_time_only, filter_recipes_filter.
  split.
  - rewrite !intersection_filters. reflexivity.
  - intros r. rewrite !List.filter_In, !andb_true_iff. tauto.
Qed.

(** C8: for every recipe list and every combination of criteria, the
    result of [filter_recipes] is a subsequence of the input: elements are
    dropped, never added, repeated or moved. *)
Theorem filter_recipes_sublist (recipes : list Recipe.t)
    (cost cuisine : option string) (max_time : option Z) :
  filter_recipes recipes cost cuisine max_time `sublist_of` recipes.
Proof. rewrite filter_recipes_filter. apply filter_sublist. Qed.

(** ** The catalog loader *)

Lemma load_recipes_missing fs json_load file_path :
  fs file_path = Missing ->
  load_recipes fs json_load file_path =
    ([StError ("Recipe file not found: " ++ file_path)], Return (PList [])).
Proof.
  intros H. unfold load_recipes, load_recipes_try, open. rewrite H. reflexivity.
Qed.

Lemma load_recipes_undecodable fs json_load file_path content :
  fs file_path = Text content ->
  json_load content = Raise JSONDecodeError ->
  load_recipes fs json_load file_path =
    ([StError "Error decoding recipe file. Please check the JSON format."],
     Return (PList [])).
Proof.
  intros H1 H2. unfold load_recipes, load_recipes_try, open.
  rewrite H1. simpl. rewrite H2. reflexivity.
Qed.

(** A document that decodes but is not an object with the key [recipes]
    is not handled: the exception of the subscript reaches the caller. *)
Lemma load_recipes_no_key fs json_load file_path content data e :
  fs file_path = Text content ->
  json_load content = Return data ->
  subscript data "recipes" = Raise e ->
  (e = KeyError \/ e = TypeError)
  /\ load_recipes fs json_load file_path = ([], Raise e).
Proof.
  intros H1 H2 H3.
  assert (e = KeyError \/ e = TypeError) as He.
  { unfold subscript in H3.
    destruct data; try (inversion H3; auto).
    destruct (dict_get _ _); inversion H3; auto. }
  split; [exact He|].
  unfold load_recipes, load_recipes_try, open.
  rewrite H1. simpl. rewrite H2. simpl. rewrite H3.
  destruct He; subst; reflexivity.
Qed.

(** C3, as stated, fails on a source that is malformed in another way: a
    file that holds the JSON document [{}] decodes, has no key [recipes],
    and the KeyError of [data['recipes']] reaches the caller; no message
    is shown and nothing is returned. *)
Lemma load_recipes_wrong_shape_counterexample :
  load_recipes sample_fs sample_json_load "empty.json" = ([], Raise KeyError)
  /\ ~ (exists msg, load_recipes sample_fs sample_json_load "empty.json"
                    = ([StError msg], Return (PList []))).
Proof.
  split; [reflexivity|]. intros [msg H]. discriminate H.
Qed.

(** C3 (amended): when the file is missing, or its text is not a JSON
    document, [load_recipes] shows an error message and returns the empty
    list; no exception reaches the caller. *)
Theorem load_recipes_missing_or_malformed
    (fs : string -> file) (json_load : string -> outcome pyval)
    (file_path : string) :
  fs file_path = Missing
  \/ (exists content,
        fs file_path = Text content /\ json_load content = Raise JSONDecodeError) ->
  exists msg,
    load_recipes fs json_load file_path = ([StError msg], Return (PList [])).
Proof.
  intros [H | (content & H1 & H2)].
  - eexists. apply load_recipes_missing, H.
  - eexists. eapply load_recipes_undecodable; eassumption.
Qed.

Lemma load_recipes_missing_or_malformed_witness :
  (exists msg, load_recipes sample_fs sample_json_load "nowhere.json"
               = ([StError msg], Return (PList [])))
  /\ (exists msg, load_recipes sample_fs sample_json_load "recipes.json"
                  = ([StError msg], Return (PList []))).
Proof.
  split.
  - apply (load_recipes_missing_or_malformed sample_fs sample_json_load "nowhere.json").
    left. reflexivity.
  - apply (load_recipes_missing_or_malformed sample_fs sample_json_load "recipes.json").
    right. exists "{". split; reflexivity.
Defined.

(** ** The random selector *)

Lemma random_choice_lookup {A : Type} (l : list A) (i : nat) (x : A) :
  l !! i = Some x -> random_choice i l = Return x.
Proof.
  intros H. destruct l as [|y l]; [discriminate|].
  unfold random_choice. rewrite H. reflexivity.
Qed.

Lemma list_not_false {A : Type} (l : list A) : l <> [] -> list_not l = false.
Proof. destruct l; [congruence | reflexivity]. Qed.

(** C1: for every non-empty recipe list and every index the generator can
    draw for it, [random.choice] returns a recipe of the list, and the
    handler displays that recipe. *)
Theorem random_choice_member (filtered_recipes : list Recipe.t) (i : nat) :
  filtered_recipes <> [] ->
  (i < length filtered_recipes)%nat ->
  exists r,
    random_choice i filtered_recipes = Return r
    /\ In r filtered_recipes
    /\ surprise_me true i filtered_recipes =
         ([StSpinner "Finding the perfect recipe..."; Sleep; DisplayRecipe r],
          Return tt).
Proof.
  intros Hne Hi.
  destruct (lookup_lt_is_Some_2 filtered_recipes i Hi) as [r Hr].
  exists r. pose proof (random_choice_lookup _ _ _ Hr) as Hc.
  split; [exact Hc|]. split.
  - apply list_elem_of_In. eapply list_elem_of_lookup_2, Hr.
  - unfold surprise_me. rewrite (list_not_false _ Hne), Hc. reflexivity.
Qed.

Lemma random_choice_member_witness :
  exists r,
    random_choice 1 catalog = Return r
    /\ In r catalog
    /\ surprise_me true 1 catalog =
         ([StSpinner "Finding the perfect recipe..."; Sleep; DisplayRecipe r],
          Return tt).
Proof.
  apply (random_choice_member catalog 1); [discriminate | simpl; lia].
Defined.

(** C4: on an empty filtered list a click shows the error message and
    nothing else: no recipe is chosen or displayed, and the handler
    returns normally. The guard is what keeps [random.choice] from
    raising IndexError there. *)
Theorem surprise_me_empty (i : nat) :
  surprise_me true i [] =
    ([StError "No recipes match your criteria. Try adjusting the filters!"],
     Return tt)
  /\ random_choice i (@nil Recipe.t) = Raise IndexError.
Proof. split; reflexivity. Qed.

(** The same through the sidebar: with a catalog that is not empty, a
    click on an empty selection ends normally with the message. *)
Lemma main_sidebar_empty_selection recipes cost cuisine time_filter i :
  recipes <> [] ->
  filter_recipes recipes cost cuisine (Some time_filter) = [] ->
  main_sidebar recipes cost cuisine time_filter true i =
    ([MatchingRecipes 0;
      StError "No recipes match your criteria. Try adjusting the filters!"],
     Return tt).
Proof.
  intros Hne Hf. unfold main_sidebar.
  destruct recipes as [|r rest]; [congruence|].
  cbn [max_possible_time]. rewrite Hf. reflexivity.
Qed.

(** With an empty catalog the sidebar stops earlier: [max] of no cooking
    times raises ValueError before the filter and the button. *)
Lemma main_sidebar_empty_catalog cost cuisine time_filter clicked i :
  main_sidebar [] cost cuisine time_filter clicked i = ([], Raise ValueError).
Proof. reflexivity. Qed.

Lemma tagged_lookup {A : Type} (l : list A) (i : nat) :
  tagged l !! i = (fun x => (i, x)) <$> l !! i.
Proof. unfold tagged. apply list_lookup_imap. Qed.

Lemma selects_eqb {A : Type} (l : list A) (k i : nat) :
  (i < length l)%nat -> selects l k i = Nat.eqb i k.
Proof.
  intros Hi. destruct (lookup_lt_is_Some_2 l i Hi) as [x Hx].
  unfold selects.
  rewrite (random_choice_lookup (tagged l) i (i, x)); [reflexivity|].
  rewrite tagged_lookup, Hx. reflexivity.
Qed.

Lemma filter_eqb_seq (k a n : nat) :
  List.filter (fun i => Nat.eqb i k) (seq a n) =
  if decide (a <= k < a + n)%nat then [k] else [].
Proof.
  revert a. induction n as [|n IH]; intros a; simpl.
  - case_decide; [lia | reflexivity].
  - rewrite IH. destruct (Nat.eqb_spec a k) as [->|Hne].
    + repeat case_decide; try lia; reflexivity.
    + repeat case_decide; try lia; reflexivity.
Qed.

(** C9: for every non-empty list of [n] elements and every position
    [k < n], the draw [k] is possible and selects the element at position
    [k], and of the [n] equally likely draws exactly one selects that
    position: its probability is [1/n]. *)
Theorem random_choice_uniform (filtered_recipes : list Recipe.t) (k : nat) :
  (k < length filtered_recipes)%nat ->
  In k (draws (length filtered_recipes))
  /\ (exists r, filtered_recipes !! k = Some r
                /\ random_choice k filtered_recipes = Return r)
  /\ List.filter (selects filtered_recipes k) (draws (length filtered_recipes)) = [k]
  /\ prob (length filtered_recipes) (selects filtered_recipes k)
     == 1 # Pos.of_nat (length filtered_recipes).
Proof.
  intros Hk.
  assert (List.filter (selects filtered_recipes k) (draws (length filtered_recipes))
          = [k]) as E.
  { unfold draws.
    rewrite (List.filter_ext_in (selects filtered_recipes k) (fun i => Nat.eqb i k)).
    - rewrite filter_eqb_seq. case_decide; [reflexivity | lia].
    - intros i Hi. apply in_seq in Hi. apply selects_eqb. lia. }
  split; [apply in_seq; lia|]. split; [|split; [exact E|]].
  - destruct (lookup_lt_is_Some_2 filtered_recipes k Hk) as [r Hr].
    exists r. split; [exact Hr | apply random_choice_lookup, Hr].
  - unfold prob. rewrite E. reflexivity.
Qed.

Lemma random_choice_uniform_witness :
  In 2%nat (draws 3)
  /\ (exists r, catalog !! 2%nat = Some r /\ random_choice 2 catalog = Return r)
  /\ List.filter (selects catalog 2) (draws 3) = [2%nat]
  /\ prob 3 (selects catalog 2) == 1 # 3.
Proof.
  apply (random_choice_uniform catalog 2). simpl. lia.
Defined.

(** ** The filter on the object store *)

Section HeapFacts.

Implicit Types (h : Heap.heap) (l dst : Heap.loc) (rs : list Recipe.t).

Lemma view_Some h l rs :
  Heap.view h l = Some rs <->
  exists items, Heap.read_list h l = Some items /\ Heap.dicts h items rs.
Proof.
  unfold Heap.view, Heap.dicts. destruct (Heap.read_list h l) as [items|]; simpl.
  - rewrite mapM_Some. split.
    + intros H. exists items. auto.
    + intros (items' & E & H). congruence.
  - split; [discriminate | intros (items & E & _); discriminate].
Qed.

Lemma read_dict_mono h h' l r :
  h ⊆ h' -> Heap.read_dict h l = Some r -> Heap.read_dict h' l = Some r.
Proof.
  unfold Heap.read_dict. intros Hsub H.
  destruct (h !! l) as [[r'|]|] eqn:E; try discriminate.
  rewrite (lookup_weaken _ _ _ _ E Hsub). exact H.
Qed.

Lemma read_list_mono h h' l items :
  h ⊆ h' -> Heap.read_list h l = Some items -> Heap.read_list h' l = Some items.
Proof.
  unfold Heap.read_list. intros Hsub H.
  destruct (h !! l) as [[|items']|] eqn:E; try discriminate.
  rewrite (lookup_weaken _ _ _ _ E Hsub). exact H.
Qed.

(** What a list object holds is still there in a larger store. *)
Lemma view_mono h h' l rs : h ⊆ h' -> Heap.view h l = Some rs -> Heap.view h' l = Some rs.
Proof.
  intros Hsub. rewrite !view_Some. intros (items & Hl & Hd).
  exists items. split; [eapply read_list_mono; eassumption|].
  eapply Forall2_impl; [exact Hd|]. intros x r. apply read_dict_mono, Hsub.
Qed.

Lemma read_dict_insert_list h dst acc x :
  x <> dst -> Heap.read_dict (<[dst := Heap.List acc]> h) x = Heap.read_dict h x.
Proof. intros Hne. unfold Heap.read_dict. rewrite lookup_insert_ne; auto. Qed.

Lemma read_dict_not_list h dst acc x r :
  h !! dst = Some (Heap.List acc) -> Heap.read_dict h x = Some r -> x <> dst.
Proof. unfold Heap.read_dict. intros Hd Hx ->. rewrite Hd in Hx. discriminate. Qed.

(** The loop only writes to [dst], and leaves there what was there
    followed by the addresses of the Heap.dicts that pass. *)
Lemma comprehension_loop_spec cond dst items rs :
  forall h acc,
    h !! dst = Some (Heap.List acc) ->
    Heap.dicts h items rs ->
    exists kept,
      Heap.comprehension_loop cond dst items h = Some (<[dst := Heap.List (acc ++ kept)]> h)
      /\ Heap.dicts h kept (List.filter cond rs).
Proof.
  unfold Heap.dicts. intros h acc Hdst Hd. revert acc h Hdst Hd.
  revert rs. induction items as [|x items IH]; intros rs acc h Hdst Hd.
  - apply Forall2_nil_inv_l in Hd as ->. exists []. split; [|constructor].
    simpl. rewrite app_nil_r, insert_id; auto.
  - apply Forall2_cons_inv_l in Hd as (r & rs' & Hx & Hd & ->).
    pose proof (read_dict_not_list _ _ _ _ _ Hdst Hx) as Hne.
    simpl. rewrite Hx. simpl. destruct (cond r) eqn:Hc.
    + unfold Heap.read_list at 1. rewrite Hdst. simpl.
      destruct (IH rs' (acc ++ [x])%list (<[dst := Heap.List (acc ++ [x])]> h))
        as (kept & Hrun & Hkept).
      * apply lookup_insert_eq.
      * eapply Forall2_impl; [exact Hd|]. intros y r' Hy. simpl in Hy.
        rewrite read_dict_insert_list; [exact Hy|].
        eapply read_dict_not_list; eassumption.
      * exists (x :: kept). split.
        -- rewrite Hrun, insert_insert_eq, <- app_assoc. reflexivity.
        -- constructor; [exact Hx|].
           eapply Forall2_impl; [exact Hkept|]. intros y r' Hy. simpl in Hy.
           destruct (decide (y = dst)) as [->|Hy'].
           ++ unfold Heap.read_dict in Hy. rewrite lookup_insert_eq in Hy. discriminate.
           ++ rewrite read_dict_insert_list in Hy; auto.
    + destruct (IH rs' acc h Hdst Hd) as (kept & Hrun & Hkept).
      exists kept. split; assumption.
Qed.

(** A comprehension leaves every object of the store as it was, and
    yields a new list object with the recipes that pass. *)
Lemma comprehension_spec cond h l rs :
  Heap.view h l = Some rs ->
  exists h' dst,
    Heap.comprehension cond h l = Some (h', dst)
    /\ h !! dst = None
    /\ h ⊆ h'
    /\ Heap.view h' dst = Some (List.filter cond rs).
Proof.
  rewrite view_Some. intros (items & Hl & Hd).
  set (dst := fresh (dom h)).
  assert (h !! dst = None) as Hfresh.
  { apply not_elem_of_dom. apply is_fresh. }
  assert (h ⊆ <[dst := Heap.List []]> h) as Hsub1 by (apply insert_subseteq, Hfresh).
  destruct (comprehension_loop_spec cond dst items rs (<[dst := Heap.List []]> h) [])
    as (kept & Hrun & Hkept).
  { apply lookup_insert_eq. }
  { eapply Forall2_impl; [exact Hd|]. intros x r. apply read_dict_mono, Hsub1. }
  rewrite insert_insert_eq in Hrun. simpl in Hrun.
  exists (<[dst := Heap.List kept]> h), dst.
  assert (h ⊆ <[dst := Heap.List kept]> h) as Hsub by (apply insert_subseteq, Hfresh).
  split; [|split; [exact Hfresh | split; [exact Hsub|]]].
  - unfold Heap.comprehension, Heap.alloc. rewrite Hl. simpl.
    fold dst. rewrite Hrun. reflexivity.
  - apply view_Some. exists kept. split.
    + unfold Heap.read_list. rewrite lookup_insert_eq. reflexivity.
    + eapply Forall2_impl; [exact Hkept|]. intros x r Hx. simpl in Hx.
      destruct (decide (x = dst)) as [->|Hne].
      * unfold Heap.read_dict in Hx. rewrite lookup_insert_eq in Hx. discriminate.
      * rewrite read_dict_insert_list in Hx; auto.
        rewrite read_dict_insert_list; auto.
Qed.

(** One guarded step: either nothing happens, or a comprehension runs. *)
Lemma guarded_spec {A : Type} (truth : A -> bool) (c : option A) cond h l rs :
  Heap.view h l = Some rs ->
  exists h' l',
    Heap.guarded truth c cond (h, l) = Some (h', l')
    /\ h ⊆ h'
    /\ Heap.view h' l' = Some (guarded truth c cond rs)
    /\ (if from_option truth false c then h !! l' = None
        else h' = h /\ l' = l).
Proof.
  intros Hv. unfold Heap.guarded, guarded.
  destruct c as [v|]; simpl; [destruct (truth v) eqn:Ht|].
  - destruct (comprehension_spec (cond v) h l rs Hv) as (h' & dst & E & Hf & Hs & Hv').
    exists h', dst. auto.
  - exists h, l. auto.
  - exists h, l. auto.
Qed.

End HeapFacts.

(** With no criterion that passes its test, [filtered] is still the
    argument: the caller gets its own list back, not a copy. *)
Lemma filter_recipes_alias (h : Heap.heap) (recipes : Heap.loc) :
  Heap.filter_recipes h recipes None (Some "") (Some 0) = Some (h, recipes).
Proof. reflexivity. Qed.

(** C10, as stated, fails on its last words: with no criterion in force
    no list is built. [filtered] is still the argument when it is
    returned, so the result is the input list object itself, at its old
    address, and the store is the one before the call. *)
Lemma filter_recipes_no_new_list_counterexample :
  Heap.filter_recipes sample_heap 4%positive None None None
    = Some (sample_heap, 4%positive)
  /\ ~ (exists h' result,
          Heap.filter_recipes sample_heap 4%positive None None None
            = Some (h', result)
          /\ sample_heap !! result = None).
Proof.
  split; [reflexivity|]. intros (h' & result & E & Hnew).
  injection E as <- <-. vm_compute in Hnew. discriminate.
Qed.

(** C10 (amended): for every store, every list of recipes in it and every
    combination of criteria, [filter_recipes] returns, and every object
    that was in the store before the call - the input list and every
    recipe dict among them - is the same after it. The result holds the
    filtered recipes; it is a list object that did not exist before the
    call when a criterion applies, and the input list itself otherwise. *)
Theorem filter_recipes_frame (h : Heap.heap) (recipes : Heap.loc)
    (rs : list Recipe.t) (cost cuisine : option string) (max_time : option Z) :
  Heap.view h recipes = Some rs ->
  exists h' result,
    Heap.filter_recipes h recipes cost cuisine max_time = Some (h', result)
    /\ (forall l o, h !! l = Some o -> h' !! l = Some o)
    /\ Heap.view h' recipes = Some rs
    /\ Heap.view h' result = Some (filter_recipes rs cost cuisine max_time)
    /\ (if Heap.applies cost cuisine max_time then h !! result = None
        else h' = h /\ result = recipes).
Proof.
  intros Hv.
  destruct (guarded_spec PyStr.str_truth cost cost_is h recipes rs Hv)
    as (h1 & l1 & E1 & S1 & V1 & F1).
  destruct (guarded_spec PyStr.str_truth cuisine cuisine_is h1 l1 _ V1)
    as (h2 & l2 & E2 & S2 & V2 & F2).
  destruct (guarded_spec PyStr.int_truth max_time within_time h2 l2 _ V2)
    as (h3 & l3 & E3 & S3 & V3 & F3).
  assert (h ⊆ h3) as Hsub by (etrans; [exact S1 | etrans; [exact S2 | exact S3]]).
  exists h3, l3. split; [|split; [|split; [|split]]].
  - unfold Heap.filter_recipes. rewrite E1. simpl. rewrite E2. simpl.
    rewrite E3. reflexivity.
  - intros l o Hl. eapply lookup_weaken; eassumption.
  - eapply view_mono; eassumption.
  - exact V3.
  - unfold Heap.applies.
    destruct (from_option PyStr.int_truth false max_time).
    + rewrite !orb_true_r.
      eapply lookup_weaken_None; [exact F3 | transitivity h1; assumption].
    + destruct F3 as [-> ->]. rewrite orb_false_r.
      destruct (from_option PyStr.str_truth false cuisine).
      * rewrite orb_true_r. eapply lookup_weaken_None; eassumption.
      * destruct F2 as [-> ->]. rewrite orb_false_r.
        destruct (from_option PyStr.str_truth false cost); [exact F1|].
        destruct F1 as [-> ->]. split; reflexivity.
Qed.

Lemma filter_recipes_frame_witness :
  exists h' result,
    Heap.filter_recipes sample_heap 4%positive (Some "$") None (Some 25)
      = Some (h', result)
    /\ (forall l o, sample_heap !! l = Some o -> h' !! l = Some o)
    /\ Heap.view h' 4%positive = Some catalog
    /\ Heap.view h' result = Some (filter_recipes catalog (Some "$") None (Some 25))
    /\ (if Heap.applies (Some "$") None (Some 25) then sample_heap !! result = None
        else h' = sample_heap /\ result = 4%positive).
Proof.
  apply (filter_recipes_frame sample_heap 4%positive catalog).
  vm_compute. reflexivity.
Defined.

(** * Further properties *)

(** ** The order of strings *)

Lemma ascii_compare_N (a b : ascii) :
  Ascii.compare a b = N.compare (N_of_ascii a) (N_of_ascii b).
Proof. reflexivity. Qed.

Lemma ascii_compare_Eq (a b : ascii) : Ascii.compare a b = Eq -> a = b.
Proof.
  rewrite ascii_compare_N, N.compare_eq_iff. intros H.
  rewrite <- (ascii_N_embedding a), <- (ascii_N_embedding b), H. reflexivity.
Qed.

Lemma string_compare_trans (c : comparison) (s t u : string) :
  String.compare s t = c -> String.compare t u = c -> String.compare s u = c.
Proof.
  revert t u. induction s as [|a s IH]; intros [|b t] [|d u]; simpl;
    try congruence.
  destruct (Ascii.compare a b) eqn:Eab.
  - apply ascii_compare_Eq in Eab as ->.
    destruct (Ascii.compare b d) eqn:Ebd; try congruence. apply IH.
  - destruct (Ascii.compare b d) eqn:Ebd; intros <-; try congruence.
    + apply ascii_compare_Eq in Ebd as ->. rewrite Eab. reflexivity.
    + intros _. rewrite ascii_compare_N in *.
      rewrite N.compare_lt_iff in *.
      replace (N_of_ascii a ?= N_of_ascii d)%N with Lt; [reflexivity|].
      symmetry. apply N.compare_lt_iff. lia.
  - destruct (Ascii.compare b d) eqn:Ebd; intros <-; try congruence.
    + apply ascii_compare_Eq in Ebd as ->. rewrite Eab. reflexivity.
    + intros _. rewrite ascii_compare_N in *.
      rewrite N.compare_gt_iff in *.
      replace (N_of_ascii a ?= N_of_ascii d)%N with Gt; [reflexivity|].
      symmetry. apply N.compare_gt_iff. lia.
Qed.

#[global] Instance str_le_total : Total str_le.
Proof. intros s t. apply String.leb_total. Qed.

#[global] Instance str_le_antisymm : AntiSymm (=) str_le.
Proof. intros s t Hst Hts. apply String.leb_antisym; assumption. Qed.

#[global] Instance str_le_trans : Transitive str_le.
Proof.
  intros s t u. unfold str_le, String.leb. intros Hst Htu.
  destruct (String.compare s t) eqn:Est; try discriminate;
    destruct (String.compare t u) eqn:Etu; try discriminate.
  - apply String.compare_eq_iff in Est as ->. rewrite Etu. reflexivity.
  - apply String.compare_eq_iff in Est as ->. rewrite Etu. reflexivity.
  - apply String.compare_eq_iff in Etu as ->. rewrite Est. reflexivity.
  - rewrite (string_compare_trans Lt s t u Est Etu). reflexivity.
Qed.

(** ** The cuisine options *)

Lemma cuisines_Permutation (recipes : list Recipe.t) :
  cuisines recipes ≡ₚ
  elements (list_to_set (map Recipe.cuisine recipes) : gset string).
Proof. apply merge_sort_Permutation. Qed.

Lemma cuisines_elem_of (recipes : list Recipe.t) (c : string) :
  c ∈ cuisines recipes <-> c ∈ map Recipe.cuisine recipes.
Proof.
  rewrite cuisines_Permutation, elem_of_elements, elem_of_list_to_set.
  reflexivity.
Qed.

(** The cuisine options of [main]: every cuisine of the catalog, exactly
    as it is spelled there, once, in ascending order of Python strings.
    The list does not depend on the order in which the set hands out its
    elements: sorting any listing of the same cuisines without repeats
    gives it. *)
Theorem cuisines_sorted_distinct (recipes : list Recipe.t) :
  StronglySorted str_le (cuisines recipes)
  /\ NoDup (cuisines recipes)
  /\ (forall c, In c (cuisines recipes) <->
                exists r, In r recipes /\ Recipe.cuisine r = c)
  /\ (forall listing : list string,
        NoDup listing ->
        (forall c, In c listing <-> In c (map Recipe.cuisine recipes)) ->
        merge_sort str_le listing = cuisines recipes).
Proof.
  split; [apply StronglySorted_merge_sort; apply _|].
  assert (NoDup (cuisines recipes)) as Hnd.
  { rewrite cuisines_Permutation. apply NoDup_elements. }
  split; [exact Hnd|]. split.
  - intros c. rewrite <- list_elem_of_In, cuisines_elem_of, list_elem_of_In.
    rewrite in_map_iff. split; intros (r & H1 & H2); exists r; auto.
  - intros listing Hl Hsame.
    apply (StronglySorted_unique str_le).
    + apply StronglySorted_merge_sort; apply _.
    + apply StronglySorted_merge_sort; apply _.
    + rewrite merge_sort_Permutation.
      apply NoDup_Permutation; [exact Hl | exact Hnd|].
      intros c. rewrite cuisines_elem_of, !list_elem_of_In. apply Hsame.
Qed.

Lemma cuisines_sorted_distinct_witness :
  merge_sort str_le ["Thai"; "ITALIAN"; "Italian"] = cuisines catalog.
Proof.
  destruct (cuisines_sorted_distinct catalog) as (_ & _ & _ & H).
  apply H.
  - repeat constructor; rewrite ?list_elem_of_In; simpl; intuition discriminate.
  - intros c. simpl. intuition.
Defined.

(** ** The time slider *)

Lemma fold_left_max_spec (l : list Z) (a : Z) :
  a <= fold_left Z.max l a
  /\ (forall x, In x l -> x <= fold_left Z.max l a)
  /\ (fold_left Z.max l a = a \/ In (fold_left Z.max l a) l).
Proof.
  revert a. induction l as [|y l IH]; intros a; simpl.
  - split; [lia|]. split; [tauto | auto].
  - destruct (IH (Z.max a y)) as (H1 & H2 & H3).
    split; [lia|]. split.
    + intros x [<- | Hx]; [lia | apply H2, Hx].
    + destruct H3 as [H3 | H3]; [|auto].
      rewrite H3. destruct (Z.max_spec a y) as [[_ ->] | [_ ->]]; auto.
Qed.

Lemma max_possible_time_Return (recipes : list Recipe.t) (m : Z) :
  max_possible_time recipes = Return m ->
  (exists r, In r recipes /\ Recipe.cooking_time r = m)
  /\ forall r, In r recipes -> Recipe.cooking_time r <= m.
Proof.
  destruct recipes as [|r0 rest]; simpl; [discriminate|]. intros [= <-].
  destruct (fold_left_max_spec (map Recipe.cooking_time rest)
              (Recipe.cooking_time r0)) as (H1 & H2 & H3).
  split.
  - destruct H3 as [-> | H3]; [exists r0; auto|].
    apply in_map_iff in H3 as (r & Hr & Hin). exists r. auto.
  - intros r [<- | Hr]; [exact H1|]. apply H2, in_map, Hr.
Qed.

(** [max_possible_time] of [main] raises ValueError exactly on the empty
    catalog; on any other it is the cooking time of one of the recipes,
    and no recipe takes longer. *)
Theorem max_possible_time_spec (recipes : list Recipe.t) :
  (max_possible_time recipes = Raise ValueError <-> recipes = [])
  /\ (forall m, max_possible_time recipes = Return m ->
        (exists r, In r recipes /\ Recipe.cooking_time r = m)
        /\ forall r, In r recipes -> Recipe.cooking_time r <= m).
Proof.
  split; [|apply max_possible_time_Return].
  destruct recipes as [|r0 rest]; simpl; split; congruence.
Qed.

Lemma max_possible_time_spec_witness :
  (exists r, In r catalog /\ Recipe.cooking_time r = 45)
  /\ forall r, In r catalog -> Recipe.cooking_time r <= 45.
Proof.
  destruct (max_possible_time_spec catalog) as [_ H]. apply H. reflexivity.
Defined.

Lemma slider_default (recipes : list Recipe.t) (time_filter : Z) :
  slider recipes None = Return time_filter ->
  max_possible_time recipes = Return time_filter.
Proof.
  unfold slider. destruct (max_possible_time recipes); simpl; congruence.
Qed.

Lemma effective_time_at_max recipes m r :
  max_possible_time recipes = Return m -> In r recipes ->
  effective PyStr.int_truth (Some m) within_time r = true.
Proof.
  intros Hm Hr. destruct (max_possible_time_Return recipes m Hm) as [_ Hle].
  unfold effective, within_time.
  destruct (PyStr.int_truth m); [|reflexivity].
  apply Z.leb_le, Hle, Hr.
Qed.

Lemma filter_recipes_at_max recipes cost cuisine m :
  max_possible_time recipes = Return m ->
  filter_recipes recipes cost cuisine (Some m) =
  filter_recipes recipes cost cuisine None.
Proof.
  intros Hm. rewrite !filter_recipes_filter.
  apply List.filter_ext_in. intros r Hr.
  rewrite (effective_time_at_max recipes m r Hm Hr). reflexivity.
Qed.

(** With the slider left where it starts, at the longest cooking time of
    the catalog, the time criterion removes nothing: the result is that
    of the cost and cuisine criteria alone. *)
Theorem slider_default_keeps_all (recipes : list Recipe.t)
    (cost cuisine : option string) (time_filter : Z) :
  slider recipes None = Return time_filter ->
  filter_recipes recipes cost cuisine (Some time_filter) =
  filter_recipes recipes cost cuisine None.
Proof. intros Hs. apply filter_recipes_at_max, slider_default, Hs. Qed.

Lemma slider_default_keeps_all_witness :
  filter_recipes catalog (Some "$") None (Some 45) =
  filter_recipes catalog (Some "$") None None.
Proof.
  apply (slider_default_keeps_all catalog (Some "$") None 45). reflexivity.
Defined.

Lemma cuisine_is_refl (c : string) (r : Recipe.t) :
  Recipe.cuisine r = c -> cuisine_is c r = true.
Proof. intros <-. apply String.eqb_refl. Qed.

Lemma cuisine_option_filter recipes cuisine_filter m :
  max_possible_time recipes = Return m ->
  In cuisine_filter (cuisine_options recipes) ->
  filter_recipes recipes None (selected_cuisine cuisine_filter) (Some m) <> [].
Proof.
  intros Hm Hc. rewrite (filter_recipes_at_max _ _ _ _ Hm).
  rewrite filter_recipes_cuisine_only.
  destruct (max_possible_time_Return recipes m Hm) as [(r0 & Hr0 & _) _].
  unfold selected_cuisine.
  destruct (String.eqb_spec cuisine_filter "Any") as [->|Hne].
  - simpl. rewrite filter_true. intros ->. exact Hr0.
  - destruct Hc as [Hc | Hc]; [congruence|].
    apply list_elem_of_In, cuisines_elem_of, list_elem_of_In in Hc.
    apply in_map_iff in Hc as (r & Hr & Hin).
    assert (In r (List.filter
               (effective PyStr.str_truth (Some cuisine_filter) cuisine_is) recipes))
      as Hin'.
    { apply List.filter_In. split; [exact Hin|]. unfold effective.
      destruct (PyStr.str_truth cuisine_filter); [|reflexivity].
      apply cuisine_is_refl, Hr. }
    intros E. rewrite E in Hin'. exact Hin'.
Qed.

(** With the budget at "Any" and the slider not moved, every option of
    the cuisine select box matches at least one recipe, so a click on
    "Surprise Me!" never answers that no recipe matches. *)
Theorem cuisine_option_has_match (recipes : list Recipe.t)
    (cuisine_filter : string) (time_filter : Z) :
  slider recipes None = Return time_filter ->
  In cuisine_filter (cuisine_options recipes) ->
  filter_recipes recipes None (selected_cuisine cuisine_filter) (Some time_filter)
    <> []
  /\ forall i msg,
       ~ In (StError msg)
            (main_widgets recipes AnyCost cuisine_filter None true i).1.
Proof.
  intros Hs Hc. pose proof (slider_default _ _ Hs) as Hm.
  pose proof (cuisine_option_filter _ _ _ Hm Hc) as Hne.
  split; [exact Hne|]. intros i msg.
  unfold main_widgets, main_sidebar. rewrite Hs, Hm. simpl cost_options.
  unfold surprise_me. rewrite (list_not_false _ Hne).
  destruct (random_choice i _); simpl; intuition discriminate.
Qed.

Lemma cuisine_option_has_match_witness :
  filter_recipes catalog None (selected_cuisine "ITALIAN") (Some 45) <> []
  /\ forall i msg,
       ~ In (StError msg) (main_widgets catalog AnyCost "ITALIAN" None true i).1.
Proof.
  apply (cuisine_option_has_match catalog "ITALIAN" 45); [reflexivity|].
  apply list_elem_of_In. vm_compute. set_solver.
Defined.

(** ** More about the filter *)

Lemma eq_ignore_case_nonempty (s t : string) :
  PyStr.eq_ignore_case s t = true -> PyStr.str_truth s = PyStr.str_truth t.
Proof. destruct s, t; simpl; congruence. Qed.

(** Two non-empty cuisine criteria that [str.lower] makes equal select
    the same recipes, whatever the other criteria; this for text of any
    kind, [str.lower] being the parameter [lower]. *)
Theorem cuisine_spelling_irrelevant (lower : string -> string)
    (recipes : list Recipe.t) (cost : option string)
    (cuisine1 cuisine2 : string) (max_time : option Z) :
  cuisine1 <> "" -> cuisine2 <> "" ->
  lower cuisine1 = lower cuisine2 ->
  filter_recipes_with lower recipes cost (Some cuisine1) max_time =
  filter_recipes_with lower recipes cost (Some cuisine2) max_time.
Proof.
  intros H1 H2 H. rewrite !filter_recipes_with_filter.
  apply List.filter_ext. intros r. f_equal. f_equal. unfold effective.
  apply str_truth_true in H1, H2. rewrite H1, H2.
  unfold cuisine_is_with. rewrite H. reflexivity.
Qed.

Lemma cuisine_spelling_irrelevant_witness :
  filter_recipes_with PyStr.lower catalog None (Some "ITALIAN") (Some 40) =
  filter_recipes_with PyStr.lower catalog None (Some "Italian") (Some 40).
Proof.
  apply (cuisine_spelling_irrelevant PyStr.lower catalog None
           "ITALIAN" "Italian" (Some 40)); [discriminate..|reflexivity].
Defined.

(** On text of code points below 256, two spellings that differ only in
    the case of their letters are such criteria. *)
Lemma cuisine_case_irrelevant (recipes : list Recipe.t)
    (cost : option string) (cuisine1 cuisine2 : string) (max_time : option Z) :
  PyStr.eq_ignore_case cuisine1 cuisine2 = true ->
  filter_recipes recipes cost (Some cuisine1) max_time =
  filter_recipes recipes cost (Some cuisine2) max_time.
Proof.
  intros H. rewrite !filter_recipes_filter. apply List.filter_ext. intros r.
  f_equal. f_equal. unfold effective.
  rewrite (eq_ignore_case_nonempty _ _ H).
  destruct (PyStr.str_truth cuisine2); [|reflexivity].
  unfold cuisine_is. rewrite eq_ignore_case_lower in H.
  apply String.eqb_eq in H. rewrite H. reflexivity.
Qed.

Lemma filter_implies_sublist {A : Type} (p q : A -> bool) (l : list A) :
  (forall x, p x = true -> q x = true) ->
  List.filter p l `sublist_of` List.filter q l.
Proof.
  intros Hpq. induction l as [|x l IH]; simpl; [constructor|].
  destruct (p x) eqn:Hp.
  - rewrite (Hpq x Hp). apply sublist_skip, IH.
  - destruct (q x); [apply sublist_cons|]; exact IH.
Qed.

(** Between two thresholds other than 0, the smaller one selects a
    subsequence of what the larger one selects, whatever the other
    criteria. *)
Theorem smaller_threshold_fewer (recipes : list Recipe.t)
    (cost cuisine : option string) (t1 t2 : Z) :
  t1 <> 0 -> t2 <> 0 -> t1 <= t2 ->
  filter_recipes recipes cost cuisine (Some t1) `sublist_of`
  filter_recipes recipes cost cuisine (Some t2).
Proof.
  intros H1 H2 Hle. rewrite !filter_recipes_filter.
  apply filter_implies_sublist. intros r.
  rewrite !andb_true_iff. intros [Hcc Ht]. split; [exact Hcc|].
  apply int_truth_true in H1, H2. unfold effective in *.
  rewrite H1 in Ht. rewrite H2. unfold within_time in *.
  apply Z.leb_le. apply Z.leb_le in Ht. lia.
Qed.

Lemma smaller_threshold_fewer_witness :
  filter_recipes catalog None None (Some 20) `sublist_of`
  filter_recipes catalog None None (Some 30).
Proof.
  apply (smaller_threshold_fewer catalog None None 20 30); lia.
Defined.

(** The threshold 0 breaks that order: it selects everything, and every
    recipe that a threshold below it rejects comes back. *)
Lemma threshold_zero_not_smallest :
  filter_recipes catalog None None (Some (-1)) = []
  /\ filter_recipes catalog None None (Some 0) = catalog.
Proof. split; reflexivity. Qed.

(** Filtering a result again by the same criteria changes nothing. *)
Theorem filter_recipes_idempotent (recipes : list Recipe.t)
    (cost cuisine : option string) (max_time : option Z) :
  filter_recipes (filter_recipes recipes cost cuisine max_time)
    cost cuisine max_time =
  filter_recipes recipes cost cuisine max_time.
Proof.
  rewrite (filter_recipes_filter (filter_recipes _ _ _ _)).
  rewrite filter_recipes_filter, filter_filter.
  apply List.filter_ext. intros r. apply andb_diag.
Qed.

(** Each recipe is kept or dropped on its own fields alone: filtering two
    catalogs put end to end is filtering each and putting the results end
    to end. *)
Theorem filter_recipes_app (recipes1 recipes2 : list Recipe.t)
    (cost cuisine : option string) (max_time : option Z) :
  filter_recipes (recipes1 ++ recipes2) cost cuisine max_time =
  (filter_recipes recipes1 cost cuisine max_time
   ++ filter_recipes recipes2 cost cuisine max_time)%list.
Proof. rewrite !filter_recipes_filter. apply List.filter_app. Qed.

(** Criteria given in successive calls, in either order, select what one
    call with all of them selects. *)
Theorem filter_recipes_successive (recipes : list Recipe.t)
    (cost cuisine : option string) (max_time : option Z) :
  filter_recipes (filter_recipes recipes cost None None) None cuisine max_time
    = filter_recipes recipes cost cuisine max_time
  /\ filter_recipes (filter_recipes recipes None cuisine max_time) cost None None
    = filter_recipes recipes cost cuisine max_time.
Proof.
  split.
  - reflexivity.
  - rewrite !filter_recipes_filter, filter_filter.
    apply List.filter_ext. intros r. simpl.
    destruct (effective PyStr.str_truth cost cost_is r),
             (effective PyStr.str_truth cuisine cuisine_is r),
             (effective PyStr.int_truth max_time within_time r); reflexivity.
Qed.

(** ** Emoji *)

(** [get_cost_emoji] knows exactly the three tiers of the budget select
    box, and shows one money bag for each dollar sign; any other string
    gets the empty string, not an error. *)
Theorem get_cost_emoji_tiers (cost : string) :
  (exists tier, cost = tier_str tier)
  /\ get_cost_emoji cost = repeat money_bag (String.length cost)
  \/ (forall tier, cost <> tier_str tier) /\ get_cost_emoji cost = [].
Proof.
  unfold get_cost_emoji, cost_emoji, table_get.
  destruct (String.eqb_spec "$" cost) as [<-|H1];
    [left; split; [exists Budget|]; reflexivity|].
  destruct (String.eqb_spec "$$" cost) as [<-|H2];
    [left; split; [exists Moderate|]; reflexivity|].
  destruct (String.eqb_spec "$$$" cost) as [<-|H3];
    [left; split; [exists Luxury|]; reflexivity|].
  right. split; [|reflexivity]. intros [] ->; simpl in *; congruence.
Qed.

Lemma get_time_emoji_fast (t : Z) : t <= 30 -> get_time_emoji t = [high_voltage].
Proof.
  intros H. unfold get_time_emoji.
  destruct (Z.leb_spec t 30); [reflexivity | lia].
Qed.

Lemma get_time_emoji_not_long (t : Z) :
  t <= 60 -> get_time_emoji t <> [mantelpiece_clock; variation_selector].
Proof.
  intros H. unfold get_time_emoji.
  destruct (Z.leb_spec t 30); [discriminate|].
  destruct (Z.leb_spec t 60); [discriminate | lia].
Qed.

Lemma filter_recipes_within (recipes : list Recipe.t)
    (cost cuisine : option string) (max_time : Z) (r : Recipe.t) :
  max_time <> 0 ->
  In r (filter_recipes recipes cost cuisine (Some max_time)) ->
  Recipe.cooking_time r <= max_time.
Proof.
  intros Hnz. rewrite filter_recipes_filter, List.filter_In.
  intros [_ H]. apply andb_prop in H as [_ H].
  apply int_truth_true in Hnz. unfold effective in H. rewrite Hnz in H.
  apply Z.leb_le, H.
Qed.

(** The emoji agrees with the time filter, for every threshold other
    than 0: when the threshold is at most 30 minutes every selected
    recipe is shown with the high-voltage sign, and when it is at most 60
    no selected recipe is shown with the mantelpiece clock. (The
    threshold 0 selects the whole catalog, whatever its cooking times.) *)
Theorem time_emoji_of_filtered (recipes : list Recipe.t)
    (cost cuisine : option string) (max_time : Z) :
  max_time <> 0 ->
  (max_time <= 30 ->
   Forall (fun r => get_time_emoji (Recipe.cooking_time r) = [high_voltage])
     (filter_recipes recipes cost cuisine (Some max_time)))
  /\ (max_time <= 60 ->
      Forall (fun r => get_time_emoji (Recipe.cooking_time r)
                       <> [mantelpiece_clock; variation_selector])
        (filter_recipes recipes cost cuisine (Some max_time))).
Proof.
  intros Hnz. split; intros Hle; apply List.Forall_forall; intros r Hr;
    pose proof (filter_recipes_within _ _ _ _ _ Hnz Hr).
  - apply get_time_emoji_fast. lia.
  - apply get_time_emoji_not_long. lia.
Qed.

Lemma time_emoji_of_filtered_witness :
  Forall (fun r => get_time_emoji (Recipe.cooking_time r) = [high_voltage])
    (filter_recipes catalog None None (Some 30))
  /\ Forall (fun r => get_time_emoji (Recipe.cooking_time r)
                      <> [mantelpiece_clock; variation_selector])
       (filter_recipes catalog None None (Some 30)).
Proof.
  destruct (time_emoji_of_filtered catalog None None 30) as [H1 H2]; [lia|].
  split; [apply H1 | apply H2]; lia.
Defined.

(** ** Displaying a recipe *)

Lemma steps_shown_app (p q : list markup) :
  steps_shown (p ++ q) = (steps_shown p ++ steps_shown q)%list.
Proof. apply omap_app. Qed.

Lemma ingredients_shown_app (p q : list markup) :
  ingredients_shown (p ++ q) = (ingredients_shown p ++ ingredients_shown q)%list.
Proof. apply omap_app. Qed.

Lemma steps_shown_steps (l : list (nat * string)) :
  steps_shown (map (fun '(i, step) => Step i step) l) = l.
Proof. induction l as [|[i s] l IH]; simpl; [reflexivity|]. f_equal. exact IH. Qed.

Lemma steps_shown_ingredients (l : list string) :
  steps_shown (map Ingredient l) = [].
Proof. induction l as [|s l IH]; simpl; auto. Qed.

Lemma ingredients_shown_ingredients (l : list string) :
  ingredients_shown (map Ingredient l) = l.
Proof. induction l as [|s l IH]; simpl; [reflexivity|]. f_equal. exact IH. Qed.

Lemma ingredients_shown_steps (l : list (nat * string)) :
  ingredients_shown (map (fun '(i, step) => Step i step) l) = [].
Proof. induction l as [|[i s] l IH]; simpl; auto. Qed.

Lemma enumerate_lookup {A : Type} (l : list A) (start k : nat) :
  enumerate l start !! k = (fun x => ((start + k)%nat, x)) <$> l !! k.
Proof. unfold enumerate. rewrite list_lookup_imap. reflexivity. Qed.

(** [display_recipe] shows every ingredient once, in the order of the
    recipe, and every direction once, in order, numbered from 1 without
    gaps: step [k] is the direction at position [k - 1]. *)
Theorem display_recipe_steps (recipe : Recipe.t) :
  ingredients_shown (display_recipe recipe) = Recipe.ingredients recipe
  /\ map snd (steps_shown (display_recipe recipe)) = Recipe.directions recipe
  /\ map fst (steps_shown (display_recipe recipe))
     = seq 1 (length (Recipe.directions recipe))
  /\ forall k step,
       In (k, step) (steps_shown (display_recipe recipe)) <->
       (1 <= k)%nat /\ Recipe.directions recipe !! (k - 1)%nat = Some step.
Proof.
  assert (steps_shown (display_recipe recipe)
          = enumerate (Recipe.directions recipe) 1) as Es.
  { unfold display_recipe.
    rewrite !steps_shown_app, steps_shown_ingredients, steps_shown_steps.
    simpl. apply app_nil_r. }
  split; [|rewrite Es; split; [|split]].
  - unfold display_recipe.
    rewrite !ingredients_shown_app, ingredients_shown_ingredients,
      ingredients_shown_steps. simpl. apply app_nil_r.
  - apply list_eq. intros k. rewrite list_lookup_fmap, enumerate_lookup.
    destruct (_ !! k); reflexivity.
  - apply list_eq. intros k. rewrite list_lookup_fmap, enumerate_lookup.
    destruct (Recipe.directions recipe !! k) as [s|] eqn:E; simpl.
    + symmetry. apply lookup_seq. split; [reflexivity|].
      eapply lookup_lt_Some, E.
    + symmetry. apply lookup_seq_ge. apply lookup_ge_None in E. exact E.
  - intros k step. rewrite <- list_elem_of_In, list_elem_of_lookup. split.
    + intros [j Hj]. rewrite enumerate_lookup in Hj.
      destruct (Recipe.directions recipe !! j) as [s|] eqn:E; simpl in Hj;
        [|discriminate].
      injection Hj as <- <-. split; [lia|].
      rewrite <- E. f_equal. lia.
    + intros [Hk E]. exists (k - 1)%nat. rewrite enumerate_lookup, E. simpl.
      do 2 f_equal. lia.
Qed.

(** ** More about the loader *)

Lemma load_recipes_no_key_witness :
  load_recipes sample_fs sample_json_load "empty.json" = ([], Raise KeyError).
Proof.
  destruct (load_recipes_no_key sample_fs sample_json_load "empty.json" "{}"
              (PDict []) KeyError) as [_ H]; [reflexivity..|exact H].
Defined.

(** Whatever the file system and the decoder do, [load_recipes] shows at
    most one message; when it shows one it returns the empty list; and
    neither FileNotFoundError nor JSONDecodeError ever reaches the
    caller. *)
Theorem load_recipes_outcomes (fs : string -> file)
    (json_load : string -> outcome pyval) (file_path : string) :
  ((load_recipes fs json_load file_path).1 = []
   \/ exists msg, load_recipes fs json_load file_path
                  = ([StError msg], Return (PList [])))
  /\ (load_recipes fs json_load file_path).2 <> Raise FileNotFoundError
  /\ (load_recipes fs json_load file_path).2 <> Raise JSONDecodeError.
Proof.
  unfold load_recipes.
  destruct (load_recipes_try fs json_load file_path) as [v|[]]; simpl;
    (split; [first [left; reflexivity | right; eexists; reflexivity]
            | split; discriminate]).
Qed.

(** An error of the file system other than a missing file is not
    reported: it reaches the caller as it is. *)
Lemma load_recipes_denied fs json_load file_path :
  fs file_path = Denied ->
  load_recipes fs json_load file_path = ([], Raise PermissionError).
Proof.
  intros H. unfold load_recipes, load_recipes_try, open. rewrite H. reflexivity.
Qed.

(** ** From the file to the page *)

Lemma main_widgets_empty cost_filter cuisine_filter moved clicked i :
  main_widgets [] cost_filter cuisine_filter moved clicked i
  = ([], Raise ValueError).
Proof. reflexivity. Qed.

(** When [recipes.json] is missing, is not a JSON document, or holds an
    empty list of recipes, [main] does not reach the filter or the
    button: after the loader's message, if any, [max] of no cooking times
    raises ValueError, whatever the widgets say. *)
Theorem main_empty_catalog (fs : string -> file)
    (json_load : string -> outcome pyval) (cost_filter : CostChoice)
    (cuisine_filter : string) (moved : option Z) (clicked : bool) (i : nat) :
  fs "recipes.json" = Missing
  \/ (exists content,
        fs "recipes.json" = Text content
        /\ json_load content = Raise JSONDecodeError)
  \/ (exists content items,
        fs "recipes.json" = Text content
        /\ json_load content = Return (PDict items)
        /\ dict_get "recipes" items = Some (PList [])) ->
  exists reported,
    main fs json_load cost_filter cuisine_filter moved clicked i
    = Some (reported, Raise ValueError)
    /\ (length reported <= 1)%nat.
Proof.
  intros [H | [(content & H1 & H2) | (content & items & H1 & H2 & H3)]];
    unfold main.
  - rewrite (load_recipes_missing _ _ _ H). eexists. split; [reflexivity|].
    simpl. lia.
  - rewrite (load_recipes_undecodable _ _ _ _ H1 H2). eexists.
    split; [reflexivity|]. simpl. lia.
  - unfold load_recipes, load_recipes_try, open. rewrite H1. simpl.
    rewrite H2. simpl. rewrite H3. exists []. split; [reflexivity|].
    simpl. lia.
Qed.

Lemma main_empty_catalog_witness :
  exists reported,
    main sample_fs sample_json_load (TierCost Budget) "Thai" (Some 30) true 0
    = Some (reported, Raise ValueError)
    /\ (length reported <= 1)%nat.
Proof.
  apply (main_empty_catalog sample_fs sample_json_load).
  right. left. exists "{". split; reflexivity.
Defined.

(** ** Sharing between the catalog and the result *)

Section HeapSharing.

Implicit Types (h : Heap.heap) (l dst : Heap.loc).

Lemma comprehension_loop_sublist cond dst items :
  forall h h' acc,
    h !! dst = Some (Heap.List acc) ->
    Heap.comprehension_loop cond dst items h = Some h' ->
    exists kept,
      h' !! dst = Some (Heap.List (acc ++ kept)) /\ kept `sublist_of` items.
Proof.
  induction items as [|x items IH]; intros h h' acc Hdst Hrun; simpl in Hrun.
  - injection Hrun as <-. exists []. rewrite app_nil_r. split; [exact Hdst|].
    constructor.
  - destruct (Heap.read_dict h x) as [r|]; simpl in Hrun; [|discriminate].
    destruct (cond r).
    + unfold Heap.read_list in Hrun. rewrite Hdst in Hrun. simpl in Hrun.
      destruct (IH _ _ (acc ++ [x])%list (lookup_insert_eq _ _ _) Hrun)
        as (kept & Hk & Hs).
      exists (x :: kept). rewrite <- app_assoc in Hk. split; [exact Hk|].
      apply sublist_skip, Hs.
    + destruct (IH _ _ acc Hdst Hrun) as (kept & Hk & Hs).
      exists kept. split; [exact Hk | apply sublist_cons, Hs].
Qed.

Lemma comprehension_sublist cond h l h' l' items :
  Heap.comprehension cond h l = Some (h', l') ->
  Heap.read_list h l = Some items ->
  exists kept, Heap.read_list h' l' = Some kept /\ kept `sublist_of` items.
Proof.
  unfold Heap.comprehension, Heap.alloc. intros Hrun Hl.
  rewrite Hl in Hrun. simpl in Hrun.
  destruct (Heap.comprehension_loop _ _ _ _) as [h2|] eqn:E; [|discriminate].
  simpl in Hrun. injection Hrun as <- <-.
  destruct (comprehension_loop_sublist _ _ _ _ _ [] (lookup_insert_eq _ _ _) E)
    as (kept & Hk & Hs).
  exists kept. split; [|exact Hs]. unfold Heap.read_list. rewrite Hk.
  reflexivity.
Qed.

Lemma guarded_sublist {A : Type} (truth : A -> bool) (c : option A) cond
    h l h' l' items :
  Heap.guarded truth c cond (h, l) = Some (h', l') ->
  Heap.read_list h l = Some items ->
  exists kept, Heap.read_list h' l' = Some kept /\ kept `sublist_of` items.
Proof.
  unfold Heap.guarded. intros Hrun Hl.
  destruct c as [v|]; [destruct (truth v)|].
  - eapply comprehension_sublist; eassumption.
  - injection Hrun as <- <-. exists items. split; [exact Hl | reflexivity].
  - injection Hrun as <- <-. exists items. split; [exact Hl | reflexivity].
Qed.

(** The result of [filter_recipes] holds the very recipe dicts of the
    input list, not copies: the addresses in the result are a subsequence
    of the addresses in the input. *)
Theorem filter_recipes_shares_dicts h (recipes : Heap.loc)
    (rs : list Recipe.t) (cost cuisine : option string) (max_time : option Z) :
  Heap.view h recipes = Some rs ->
  exists h' result items kept,
    Heap.filter_recipes h recipes cost cuisine max_time = Some (h', result)
    /\ Heap.read_list h recipes = Some items
    /\ Heap.read_list h' result = Some kept
    /\ kept `sublist_of` items.
Proof.
  intros Hv.
  destruct (guarded_spec PyStr.str_truth cost cost_is h recipes rs Hv)
    as (h1 & l1 & E1 & _ & V1 & _).
  destruct (guarded_spec PyStr.str_truth cuisine cuisine_is h1 l1 _ V1)
    as (h2 & l2 & E2 & _ & V2 & _).
  destruct (guarded_spec PyStr.int_truth max_time within_time h2 l2 _ V2)
    as (h3 & l3 & E3 & _ & _ & _).
  apply view_Some in Hv as (items & Hl & _).
  destruct (guarded_sublist _ _ _ _ _ _ _ _ E1 Hl) as (k1 & Hk1 & S1).
  destruct (guarded_sublist _ _ _ _ _ _ _ _ E2 Hk1) as (k2 & Hk2 & S2).
  destruct (guarded_sublist _ _ _ _ _ _ _ _ E3 Hk2) as (k3 & Hk3 & S3).
  exists h3, l3, items, k3. split; [|split; [exact Hl | split; [exact Hk3|]]].
  - unfold Heap.filter_recipes. rewrite E1. simpl. rewrite E2. simpl.
    rewrite E3. reflexivity.
  - transitivity k2; [exact S3|]. transitivity k1; assumption.
Qed.

End HeapSharing.

Lemma filter_recipes_shares_dicts_witness :
  exists h' result items kept,
    Heap.filter_recipes sample_heap 4%positive (Some "$") None (Some 25)
      = Some (h', result)
    /\ Heap.read_list sample_heap 4%positive = Some items
    /\ Heap.read_list h' result = Some kept
    /\ kept `sublist_of` items.
Proof.
  apply (filter_recipes_shares_dicts sample_heap 4%positive catalog).
  vm_compute. reflexivity.
Defined.

(** ** The surprise respects the filters *)

Lemma effective_Some {A : Type} (truth : A -> bool) (c : option A) cond r v :
  effective truth c cond r = true -> c = Some v -> truth v = true ->
  cond v r = true.
Proof. intros H -> Ht. unfold effective in H. rewrite Ht in H. exact H. Qed.

(** A click with some recipe matching displays one recipe of the catalog,
    and that recipe meets every criterion that is in force: its cost is
    the cost asked for, its cuisine is the one asked for up to case, and
    its cooking time is within the threshold. *)
Theorem surprise_respects_filters (recipes : list Recipe.t)
    (cost cuisine : option string) (max_time : option Z) (i : nat) :
  (i < length (filter_recipes recipes cost cuisine max_time))%nat ->
  exists r,
    surprise_me true i (filter_recipes recipes cost cuisine max_time)
    = ([StSpinner "Finding the perfect recipe..."; Sleep; DisplayRecipe r],
       Return tt)
    /\ In r recipes
    /\ (forall c, cost = Some c -> c <> "" -> Recipe.cost r = c)
    /\ (forall c, cuisine = Some c -> c <> "" ->
                  PyStr.eq_ignore_case (Recipe.cuisine r) c = true)
    /\ (forall t, max_time = Some t -> t <> 0 -> Recipe.cooking_time r <= t).
Proof.
  intros Hi.
  destruct (lookup_lt_is_Some_2 _ i Hi) as [r Hr].
  exists r. split.
  - unfold surprise_me. rewrite (random_choice_lookup _ _ _ Hr).
    rewrite list_not_false; [reflexivity|].
    intros E. rewrite E in Hi. simpl in Hi. lia.
  - apply list_elem_of_lookup_2, list_elem_of_In in Hr.
    rewrite filter_recipes_filter in Hr.
    apply List.filter_In in Hr as [Hin H].
    apply andb_prop in H as [H H3]. apply andb_prop in H as [H1 H2].
    split; [exact Hin|]. split; [|split].
    + intros c Hc Hne. apply String.eqb_eq.
      apply (effective_Some _ _ _ _ _ H1 Hc). apply str_truth_true, Hne.
    + intros c Hc Hne. rewrite eq_ignore_case_lower.
      apply (effective_Some _ _ _ _ _ H2 Hc). apply str_truth_true, Hne.
    + intros t Ht Hne. apply Z.leb_le.
      apply (effective_Some _ _ _ _ _ H3 Ht). apply int_truth_true, Hne.
Qed.

Lemma surprise_respects_filters_witness :
  exists r,
    surprise_me true 1 (filter_recipes catalog (Some "$") None (Some 30))
    = ([StSpinner "Finding the perfect recipe..."; Sleep; DisplayRecipe r],
       Return tt)
    /\ In r catalog
    /\ (forall c, Some "$" = Some c -> c <> "" -> Recipe.cost r = c)
    /\ (forall c, @None string = Some c -> c <> "" ->
                  PyStr.eq_ignore_case (Recipe.cuisine r) c = true)
    /\ (forall t, Some 30 = Some t -> t <> 0 -> Recipe.cooking_time r <= t).
Proof.
  apply (surprise_respects_filters catalog (Some "$") None (Some 30) 1).
  simpl. lia.
Defined.
